(** * FastAPI_EDX: the file ingestion and validation pipeline

    A shallow embedding of [FastAPI_EDX.py]: the [Data_File] class
    ([file_validation], [df]), the three endpoint handlers
    ([process_txt_data], [validation_of_incoming_txt_file],
    [process_txt_data_table]) and the pieces of the Python runtime they
    touch (name lookup, exceptions, try/except/finally, the temporary
    file, [os.unlink], [logging.error]).

    Handlers are computations over an explicit machine state (the
    filesystem, the log, the handler's local [file_path]) that either
    return a value or raise an exception. *)

From Stdlib Require Import ZArith String Ascii List DecimalString DecimalZ
  DecimalPos.
From Stdlib.Strings Require Import Byte.
From stdpp Require Import base option gmap strings list fin_maps.

Local Open Scope string_scope.
Local Open Scope Z_scope.

(** ** Python strings: [in], [startswith], [endswith] *)

Module PyStr.

(** [s.startswith(p)] *)
Fixpoint startswith (s p : string) {struct p} : bool :=
  match p, s with
  | EmptyString, _ => true
  | String a p', String b s' => if Ascii.eqb a b then startswith s' p' else false
  | String _ _, EmptyString => false
  end.

(** [needle in hay]: [needle] occurs at some offset of [hay]. *)
Fixpoint contains (hay needle : string) : bool :=
  startswith hay needle ||
  match hay with
  | EmptyString => false
  | String _ hay' => contains hay' needle
  end.

(** [s.endswith(suffix)]: some tail of [s] is [suffix] itself. *)
Fixpoint endswith (s suffix : string) : bool :=
  String.eqb s suffix ||
  match s with
  | EmptyString => false
  | String _ s' => endswith s' suffix
  end.

End PyStr.

(** ** The Python runtime the module relies on *)

Module Py.

(** A float literal, kept as the decimal the source spells:
    [mantissa * 10 ^ exponent]. *)
Record pyfloat := Float { mantissa : Z; exponent : Z }.

(** JSON-like values the handlers build. [VObject] stands for a module
    level object (a module, class or function) of which only the name
    matters here. *)
#[local] Unset Elimination Schemes.
Inductive value :=
| VNone
| VBool (b : bool)
| VInt (n : Z)
| VFloat (x : pyfloat)
| VStr (s : string)
| VList (items : list value)
| VDict (items : list (string * value))
| VObject (name : string).
#[local] Set Elimination Schemes.

(** Exception classes that occur in the module or can come out of the
    library calls it makes. *)
Inductive exc_class :=
| BaseException | KeyboardInterrupt
| Exception | ValueError | NameError | UnboundLocalError
| OSError | FileNotFoundError | FileExistsError
| UnicodeDecodeError | ParserError.

Inductive exn :=
| PyExc (cls : exc_class) (message : string)
| HTTPException (status_code : Z) (detail : string).

(** [isinstance(e, Exception)], the test of [except Exception]. *)
Definition isinstance_Exception (e : exn) : bool :=
  match e with
  | PyExc BaseException _ | PyExc KeyboardInterrupt _ => false
  | _ => true
  end.

(** [str(e)] (also what [f"{e}"] inserts). For [HTTPException] this is
    Starlette's ["{status_code}: {detail}"]. *)
Definition str (e : exn) : string :=
  match e with
  | PyExc _ m => m
  | HTTPException sc d => NilZero.string_of_int (Z.to_int sc) +:+ ": " +:+ d
  end.

(** Machine state. [fs] holds the files other than the log file (path
    to content). [log] is the content of the log file that
    [logging.basicConfig] opens, as the [%(message)s] part of each
    record, oldest first. [local_file_path] is the one local of the
    validation handler that is read on a path where it may not have been
    assigned. *)
Record state := State {
  fs : gmap string (list byte);
  log : list string;
  local_file_path : option string
}.

Definition set_fs (f : gmap string (list byte) -> gmap string (list byte))
    (s : state) : state :=
  {| fs := f (fs s); log := log s; local_file_path := local_file_path s |}.
Definition set_log (f : list string -> list string) (s : state) : state :=
  {| fs := fs s; log := f (log s); local_file_path := local_file_path s |}.
Definition set_local_file_path (v : option string) (s : state) : state :=
  {| fs := fs s; log := log s; local_file_path := v |}.

Inductive outcome (A : Type) :=
| Returns (v : A)
| Raises (e : exn).
Arguments Returns {A} v.
Arguments Raises {A} e.

(** Computations: run from a state, end in an outcome and a state. *)
Definition M (A : Type) : Type := state -> outcome A * state.

#[global] Instance M_ret : MRet M := fun A v s => (Returns v, s).
#[global] Instance M_bind : MBind M := fun A B k c s =>
  match c s with
  | (Returns v, s') => k v s'
  | (Raises e, s') => (Raises e, s')
  end.

Definition raise {A} (e : exn) : M A := fun s => (Raises e, s).

(** [try: body  except Exception as e: handler(e)] *)
Definition try_except {A} (body : M A) (handler : exn -> M A) : M A :=
  fun s =>
    match body s with
    | (Raises e, s') =>
        if isinstance_Exception e then handler e s' else (Raises e, s')
    | r => r
    end.

(** [try: ... except Exception as e: ... finally: fin]. The [finally]
    suite runs on every way out; an exception it raises replaces the
    pending return value or exception. *)
Definition try_except_finally {A}
    (body : M A) (handler : exn -> M A) (fin : M unit) : M A :=
  fun s =>
    let (r, s') := try_except body handler s in
    match fin s' with
    | (Returns _, s'') => (r, s'')
    | (Raises e, s'') => (Raises e, s'')
    end.

(** *** Names *)

(** The module's global namespace once it is imported, in binding
    order. *)
Definition template_data_value : value :=
  VDict [
    ("Compositions", VList [
      VDict [
        ("CompositionElements", VList [
          VDict [("CompoundIndex", VInt 0); ("ElementName", VStr "V");
                 ("ValueAbsolute", VNone);
                 ("ValuePercent", VFloat (Float 31299999237906547 (-15)))];
          VDict [("CompoundIndex", VInt 0); ("ElementName", VStr "Mn");
                 ("ValueAbsolute", VNone);
                 ("ValuePercent", VFloat (Float 2700000047683716 (-15)))];
          VDict [("CompoundIndex", VInt 0); ("ElementName", VStr "Co");
                 ("ValueAbsolute", VNone);
                 ("ValuePercent", VFloat (Float 22600000381469727 (-15)))];
          VDict [("CompoundIndex", VInt 0); ("ElementName", VStr "Ni");
                 ("ValueAbsolute", VNone);
                 ("ValuePercent", VInt 6)];
          VDict [("CompoundIndex", VInt 0); ("ElementName", VStr "Ho");
                 ("ValueAbsolute", VNone);
                 ("ValuePercent", VFloat (Float 37400001525878906 (-15)))]
        ]);
        ("DeletePreviousProperties", VBool true);
        ("Properties", VList [
          VDict [("PropertyID", VInt 0); ("Type", VInt 2);
                 ("Name", VStr "Measurement Area"); ("Value", VInt 1);
                 ("ValueEpsilon", VNone); ("SortCode", VInt 10);
                 ("Row", VNone); ("Comment", VNone)]
        ])
      ]
    ])
  ].

Definition module_globals : list (string * value) :=
  [ ("FastAPI", VObject "FastAPI"); ("Request", VObject "Request");
    ("HTTPException", VObject "HTTPException");
    ("List", VObject "List"); ("Optional", VObject "Optional");
    ("os", VObject "os"); ("tempfile", VObject "tempfile");
    ("dt", VObject "datetime"); ("logging", VObject "logging");
    ("uvicorn", VObject "uvicorn"); ("pd", VObject "pandas");
    ("log_directory", VStr "./Loggs");
    ("today", VObject "today"); ("file_name", VObject "file_name");
    ("app", VObject "app"); ("Data_File", VObject "Data_File");
    ("template_data", template_data_value);
    ("process_txt_data", VObject "process_txt_data");
    ("validation_of_incoming_txt_file",
       VObject "validation_of_incoming_txt_file");
    ("process_txt_data_table", VObject "process_txt_data_table") ].

(** The names of the [builtins] module. [None], [True] and [False] are
    keywords, not names; there is no [null]. *)
Definition builtin_names : list string :=
  [ "abs"; "aiter"; "all"; "anext"; "any"; "ascii"; "bin"; "bool";
    "breakpoint"; "bytearray"; "bytes"; "callable"; "chr"; "classmethod";
    "compile"; "complex"; "copyright"; "credits"; "delattr"; "dict";
    "dir"; "divmod"; "enumerate"; "eval"; "exec"; "exit"; "filter";
    "float"; "format"; "frozenset"; "getattr"; "globals"; "hasattr";
    "hash"; "help"; "hex"; "id"; "input"; "int"; "isinstance";
    "issubclass"; "iter"; "len"; "license"; "list"; "locals"; "map";
    "max"; "memoryview"; "min"; "next"; "object"; "oct"; "open"; "ord";
    "pow"; "print"; "property"; "quit"; "range"; "repr"; "reversed";
    "round"; "set"; "setattr"; "slice"; "sorted"; "staticmethod"; "str";
    "sum"; "super"; "tuple"; "type"; "vars"; "zip";
    "Ellipsis"; "NotImplemented";
    "BaseException"; "Exception"; "ArithmeticError"; "AssertionError";
    "AttributeError"; "EOFError"; "FileExistsError"; "FileNotFoundError";
    "ImportError"; "IndexError"; "KeyError"; "KeyboardInterrupt";
    "LookupError"; "MemoryError"; "NameError"; "NotImplementedError";
    "OSError"; "IOError"; "OverflowError"; "PermissionError";
    "RuntimeError"; "StopIteration"; "SyntaxError"; "SystemExit";
    "TypeError"; "UnboundLocalError"; "UnicodeDecodeError";
    "UnicodeEncodeError"; "UnicodeError"; "ValueError"; "Warning";
    "ZeroDivisionError" ].

Fixpoint assoc (x : string) (l : list (string * value)) : option value :=
  match l with
  | [] => None
  | (k, v) :: l' => if String.eqb x k then Some v else assoc x l'
  end.

(** Reading a name that is not a local of the running function: module
    globals first, then builtins, else [NameError]. *)
Definition load_global (x : string) : M value :=
  match assoc x module_globals with
  | Some v => mret v
  | None =>
      if existsb (String.eqb x) builtin_names then mret (VObject x)
      else raise (PyExc NameError ("name '" +:+ x +:+ "' is not defined"))
  end.

(** [file_path = p] and the read of [file_path] in the validation
    handler. Reading it before any assignment raises
    [UnboundLocalError]. *)
Definition store_file_path (p : string) : M unit :=
  fun s => (Returns (), set_local_file_path (Some p) s).

Definition load_file_path : M string :=
  fun s =>
    match local_file_path s with
    | Some p => (Returns p, s)
    | None =>
        (Raises (PyExc UnboundLocalError
           "cannot access local variable 'file_path' where it is not associated with a value"),
         s)
    end.

(** Entering a function: its locals start unbound. *)
Definition new_frame : M unit :=
  fun s => (Returns (), set_local_file_path None s).

(** *** Library calls *)

(** What the operating system decides for one request: the temporary
    directory, the random names the generator draws (in order), and
    whether writing or closing the temporary file fails. *)
Record env := Env {
  gettempdir : string;
  random_names : list string;
  write_fault : option exn;
  close_fault : option exn
}.

Record temp_file := TempFile { name : string }.

Definition candidate_path (dir rnd suffix : string) : string :=
  dir +:+ "/" +:+ "tmp" +:+ rnd +:+ suffix.

(** First candidate whose path does not exist yet (the file is created
    exclusively). *)
Fixpoint first_free (files : gmap string (list byte))
    (dir suffix : string) (rnds : list string) : option string :=
  match rnds with
  | [] => None
  | rnd :: rnds' =>
      let p := candidate_path dir rnd suffix in
      match files !! p with
      | None => Some p
      | Some _ => first_free files dir suffix rnds'
      end
  end.

(** [tempfile.NamedTemporaryFile(delete=False, suffix=suffix)]: creates
    an empty file under a fresh name and returns the open file. *)
Definition NamedTemporaryFile (E : env) (suffix : string) : M temp_file :=
  fun s =>
    match first_free (fs s) (gettempdir E) suffix (random_names E) with
    | Some p => (Returns (TempFile p), set_fs (insert p []) s)
    | None =>
        (Raises (PyExc FileExistsError
           "[Errno 17] No usable temporary file name found"), s)
    end.

(** [temp_file.write(data)] on the binary-mode file. *)
Definition tf_write (E : env) (f : temp_file) (data : list byte) : M unit :=
  fun s =>
    match write_fault E with
    | Some e => (Raises e, s)
    | None => (Returns (), set_fs (alter (fun old => (old ++ data)%list) (name f)) s)
    end.

(** [temp_file.close()] *)
Definition tf_close (E : env) (f : temp_file) : M unit :=
  fun s =>
    match close_fault E with
    | Some e => (Raises e, s)
    | None => (Returns (), s)
    end.

(** [os.unlink(path)] *)
Definition os_unlink (path : string) : M unit :=
  fun s =>
    match fs s !! path with
    | Some _ => (Returns (), set_fs (delete path) s)
    | None =>
        (Raises (PyExc FileNotFoundError
           ("[Errno 2] No such file or directory: '" +:+ path +:+ "'")), s)
    end.

(** Opening [path] and reading all of it, in binary. *)
Definition read_bytes (path : string) : M (list byte) :=
  fun s =>
    match fs s !! path with
    | Some content => (Returns content, s)
    | None =>
        (Raises (PyExc FileNotFoundError
           ("[Errno 2] No such file or directory: '" +:+ path +:+ "'")), s)
    end.

(** [logging.error(msg)]: one more record at the end of the log file,
    which is [log]; the other files, [fs], are not concerned. *)
Definition logging_error (msg : string) : M unit :=
  fun s => (Returns (), set_log (fun l => (l ++ [msg])%list) s).

End Py.

(** ** The module [FastAPI_EDX] *)

Module EDX.
Import Py.

(** [class Data_File], with [__init__] storing the path. *)
Record Data_File := { file_path : string }.

Definition Data_File_init (file_path : string) : Data_File :=
  {| file_path := file_path |}.

(** A method runs on its receiver and hands the receiver back, so that
    a change of [self] would show. *)
Definition method (A : Type) : Type := Data_File -> M (A * Data_File).

Definition file_validation : method bool := fun self =>
  if PyStr.contains (file_path self) "invalid" then mret (false, self)
  else mret (true, self).

Definition TAB : string := String "009"%char EmptyString.

Section Reader.
(** pandas: the table type and the parser [read_csv] applies to the
    bytes of the file, given the delimiter. *)
Variable DataFrame : Type.
Variable parser : string -> list byte -> exn + DataFrame.

(** [pd.read_csv(path, delimiter=delimiter)] *)
Definition read_csv (path delimiter : string) : M DataFrame :=
  content ← read_bytes path;
  match parser delimiter content with
  | inl e => raise e
  | inr table => mret table
  end.

Definition df : method DataFrame := fun self =>
  try_except
    (if PyStr.endswith (file_path self) ".txt" then
       table ← read_csv (file_path self) TAB;
       mret (table, self)
     else raise (PyExc ValueError "File is not a .txt file"))
    (fun e =>
       logging_error
         ("Error reading file " +:+ file_path self +:+ ": " +:+ str e);;
       raise (HTTPException 500 ("Error reading file: " +:+ str e))).
End Reader.

(** [starlette.requests.Request], of which the handlers use the body. *)
Record Request := { body : list byte }.

(** [async def process_txt_data()] *)
Definition process_txt_data : M value :=
  load_global "template_data".

(** The route [databasevaluesbody] calls the handler with the
    parameters it declares, which are none. *)
Definition post_databasevaluesbody (request : Request) : M value :=
  process_txt_data.

Definition validation_message : string :=
  "System.Exception column 0: MA (unknown column name)".

(** [async def validation_of_incoming_txt_file(request)] *)
Definition validation_of_incoming_txt_file (E : env) (request : Request)
    : M value :=
  new_frame;;
  let byte_data := body request in
  temp_file ← NamedTemporaryFile E ".txt";
  try_except_finally
    (tf_write E temp_file byte_data;;
     tf_close E temp_file;;
     store_file_path (name temp_file);;
     file_path ← load_file_path;
     let new_file := Data_File_init file_path in
     '(validation_status, new_file) ← file_validation new_file;
     if (validation_status : bool) then
       message ← load_global "null";
       warning ← load_global "null";
       mret (VDict [("Code", VInt 0); ("Message", message);
                    ("Warning", warning)])
     else
       raise (PyExc Exception validation_message))
    (fun e =>
       logging_error ("Validation failed: " +:+ str e);;
       warning ← load_global "null";
       mret (VDict [("Code", VInt 500);
                    ("Message", VStr validation_message);
                    ("Warning", warning)]))
    (file_path ← load_file_path;
     os_unlink file_path).

Definition table_data_value : value :=
  VDict [
    ("DataTable", VList [
      VDict [("Spectrum", VStr "Spektrum 1 {1}");
             ("In stats.", VStr "Yes");
             ("X (mm)", VFloat (Float (-446) (-1)));
             ("Y (mm)", VFloat (Float (-403) (-1)));
             ("C", VFloat (Float 8036562 (-5)));
             ("O", VFloat (Float 177799 (-4)));
             ("Si", VFloat (Float 331076 (-6)));
             ("V", VFloat (Float (-3328189) (-7)));
             ("Mn", VFloat (Float 9434319 (-8)));
             ("Co", VFloat (Float 112593 (-5)));
             ("Ni", VFloat (Float 1070188 (-6)));
             ("Ho", VFloat (Float (-4342265) (-7)))]
    ])
  ].

(** [async def process_txt_data_table(request)] *)
Definition process_txt_data_table (request : Request) : M value :=
  let table_data := table_data_value in
  mret (VDict [("data", table_data)]).

End EDX.

(** ** Inputs used to run the model *)

Module Samples.
Import Py EDX.

Definition LF : string := String "010"%char EmptyString.

(** The body [b"MA\tElement\n1\tV\n"]. *)
Definition scenario_body : list byte :=
  list_byte_of_string
    ("MA" +:+ TAB +:+ "Element" +:+ LF +:+ "1" +:+ TAB +:+ "V" +:+ LF).

Definition scenario_request : Request := {| body := scenario_body |}.
Definition empty_request : Request := {| body := [] |}.

(** An empty filesystem and log. *)
Definition boot : state := State ∅ [] None.

(** The usual temporary directory; nothing fails. *)
Definition env_tmp : env :=
  {| gettempdir := "/tmp"; random_names := ["k3v9x_2a"];
     write_fault := None; close_fault := None |}.

(** A temporary directory whose own name has the marker in it. *)
Definition env_marker : env :=
  {| gettempdir := "/srv/invalid"; random_names := ["k3v9x_2a"];
     write_fault := None; close_fault := None |}.

(** The device is full: the write fails. *)
Definition env_full : env :=
  {| gettempdir := "/tmp"; random_names := ["k3v9x_2a"];
     write_fault := Some (PyExc OSError "[Errno 28] No space left on device");
     close_fault := None |}.

(** A stand-in for the pandas parser, to run [df] on concrete files:
    it cuts the content into lines and the lines into fields, and
    rejects content that is empty. *)
Fixpoint split_on (sep : byte) (l : list byte) : list (list byte) :=
  match l with
  | [] => [[]]
  | b :: l' =>
      if Byte.eqb b sep then [] :: split_on sep l'
      else match split_on sep l' with
           | [] => [[b]]
           | w :: ws => (b :: w) :: ws
           end
  end.

Definition sample_parser (delimiter : string) (content : list byte)
    : exn + list (list (list byte)) :=
  match content, list_byte_of_string delimiter with
  | [], _ => inl (PyExc ParserError "No columns to parse from file")
  | _, [sep] => inr (map (split_on sep) (split_on "010"%byte content))
  | _, _ => inl (PyExc ValueError "delimiter must be one character")
  end.

End Samples.

(** ** Parts of the two functions that the properties speak about *)

Module Parts.
Import Py EDX.

(** The first three statements of the handler: create the temporary
    file, write the body, close. *)
Definition store_steps (E : env) (byte_data : list byte) : M temp_file :=
  temp_file ← NamedTemporaryFile E ".txt";
  tf_write E temp_file byte_data;;
  tf_close E temp_file;;
  mret temp_file.

(** What the [try] suite of [df] raised, when it raised [e]. *)
Definition raised_inside {DataFrame : Type}
    (parser : string -> list byte -> exn + DataFrame)
    (self : Data_File) (s : state) (e : exn) : Prop :=
  (PyStr.endswith (file_path self) ".txt" = false /\
   e = PyExc ValueError "File is not a .txt file") \/
  (PyStr.endswith (file_path self) ".txt" = true /\
   fst (read_csv DataFrame parser (file_path self) TAB s) = Raises e).

End Parts.

(** ** Module start-up: the name of the log file *)

Module Startup.

(** [dt.datetime.today()], of which the module reads three fields. *)
Record datetime := { year : Z; month : Z; day : Z }.

(** The ranges a [datetime] keeps its fields in. *)
Definition datetime_fields_ok (d : datetime) : Prop :=
  1 <= year d <= 9999 /\ 1 <= month d <= 12 /\ 1 <= day d <= 31.

(** [str(n)], which is also what [f"{n}"] inserts for an [int]. *)
Definition str_int (n : Z) : string := NilZero.string_of_int (Z.to_int n).

(** [f"{n:02}"]: the decimal of [n], filled with zeros after the sign up
    to two characters. *)
Definition format_02 (n : Z) : string :=
  let digits := str_int n in
  if (String.length digits <? 2)%nat then "0" +:+ digits else digits.

Definition log_directory : string := "./Loggs".

(** [file_name = f"./Loggs/{today.year}-{today.month:02}-{today.day:02}.log"] *)
Definition file_name (today : datetime) : string :=
  "./Loggs/" +:+ str_int (year today) +:+ "-" +:+ format_02 (month today)
    +:+ "-" +:+ format_02 (day today) +:+ ".log".

End Startup.

(** ** More inputs *)

Module MoreSamples.
Import Py EDX Samples.

(** The write succeeds and closing the file fails. *)
Definition env_close_fails : env :=
  {| gettempdir := "/tmp"; random_names := ["k3v9x_2a"];
     write_fault := None;
     close_fault := Some (PyExc OSError "[Errno 5] Input/output error") |}.

(** The one name the generator offers is taken. *)
Definition env_no_name : env :=
  {| gettempdir := "/tmp"; random_names := ["k3v9x_2a"];
     write_fault := None; close_fault := None |}.

Definition name_taken : state :=
  State {[ "/tmp/tmpk3v9x_2a.txt" := [] ]} [] None.

(** A filesystem that already holds an upload under a ".txt" name. *)
Definition with_scan : state :=
  State {[ "/data/scan.txt" := scenario_body ]} [] None.

(** A parser that is interrupted from the keyboard. *)
Definition interrupted_parser (delimiter : string) (content : list byte)
    : exn + list (list (list byte)) :=
  inl (PyExc KeyboardInterrupt "").

End MoreSamples.

(** ** Properties *)

Import Py EDX Parts Samples Startup MoreSamples.

Ltac unfold_handler :=
  unfold validation_of_incoming_txt_file, try_except_finally, try_except,
    mbind, M_bind, new_frame, NamedTemporaryFile, tf_write, tf_close,
    store_file_path, load_file_path, file_validation, os_unlink,
    logging_error, Data_File_init;
  cbn [fs log local_file_path set_fs set_log set_local_file_path name
       file_path].

(** *** Python string tests against their meaning *)

Module PyStrFacts.

Lemma startswith_spec s p :
  PyStr.startswith s p = true <-> exists t, s = p +:+ t.
Proof.
  revert s; induction p as [|a p IH]; intros s; simpl.
  - split; [intros _; by exists s | done].
  - destruct s as [|b s].
    + split; [done | intros [t Ht]; discriminate].
    + destruct (Ascii.eqb a b) eqn:E.
      * apply Ascii.eqb_eq in E as ->. rewrite IH.
        split; intros [t Ht]; exists t; [by rewrite Ht | by injection Ht].
      * split; [done | intros [t Ht]]. injection Ht as -> _.
        by rewrite Ascii.eqb_refl in E.
Qed.

Lemma contains_spec hay needle :
  PyStr.contains hay needle = true <->
  exists pre post, hay = pre +:+ needle +:+ post.
Proof.
  induction hay as [|c hay IH]; simpl.
  - rewrite orb_false_r, startswith_spec. split.
    + intros [t Ht]. by exists EmptyString, t.
    + intros [[|? pre] [post H]]; [by exists post | discriminate].
  - rewrite orb_true_iff, startswith_spec, IH. split.
    + intros [[t Ht] | (pre & post & H)].
      * by exists EmptyString, t.
      * exists (String c pre), post. simpl. by rewrite H.
    + intros [[|a pre] [post H]].
      * left. by exists post.
      * right. exists pre, post. simpl in H. by injection H.
Qed.

Lemma endswith_spec s suffix :
  PyStr.endswith s suffix = true <-> exists pre, s = pre +:+ suffix.
Proof.
  induction s as [|c s IH]; cbn [PyStr.endswith].
  - rewrite orb_false_r, String.eqb_eq. split.
    + intros <-. by exists EmptyString.
    + intros [[|? pre] H]; [done | discriminate].
  - rewrite orb_true_iff, String.eqb_eq, IH. split.
    + intros [<- | [pre H]]; [by exists EmptyString |].
      exists (String c pre). simpl. by rewrite H.
    + intros [[|a pre] H]; [by left |].
      right. exists pre. simpl in H. by injection H.
Qed.

End PyStrFacts.

(** *** Facts about the runtime *)

Lemma load_null :
  load_global "null" = raise (PyExc NameError "name 'null' is not defined").
Proof. reflexivity. Qed.

Lemma load_template_data :
  load_global "template_data" = mret template_data_value.
Proof. reflexivity. Qed.

Lemma first_free_is_free files dir suffix rnds p :
  first_free files dir suffix rnds = Some p -> files !! p = None.
Proof.
  induction rnds as [|rnd rnds IH]; simpl; [done |].
  destruct (files !! candidate_path dir rnd suffix) eqn:Hc; [done |].
  by intros [= <-].
Qed.

(** X13. Whatever the [try] and [except] suites do, after the [finally]
    suite of the validation handler the path held by [file_path] is not
    in the filesystem. *)
Lemma finally_unlink_absent {A} (body : M A) (handler : exn -> M A) s r s' :
  try_except_finally body handler
    (file_path ← load_file_path; os_unlink file_path) s = (r, s') ->
  forall p, local_file_path s' = Some p -> fs s' !! p = None.
Proof.
  unfold try_except_finally.
  destruct (try_except body handler s) as [r1 s1].
  unfold mbind, M_bind, load_file_path.
  destruct (local_file_path s1) as [q|] eqn:Hq.
  - unfold os_unlink. destruct (fs s1 !! q) eqn:Hf.
    + intros [= <- <-] p. simpl. rewrite Hq. intros [= <-].
      apply lookup_delete_eq.
    + intros [= <- <-] p. rewrite Hq. by intros [= <-].
  - intros [= <- <-] p. by rewrite Hq.
Qed.

(** *** The validator *)

(** C5. [file_validation] returns, never raises; its verdict is [False]
    exactly when the path contains "invalid" and [True] exactly when it
    does not; the receiver, the filesystem and the log come back as they
    were. *)
Theorem file_validation_verdict (self : Data_File) (s : state) :
  exists verdict : bool,
    file_validation self s = (Returns (verdict, self), s) /\
    (verdict = false <->
       exists pre post, file_path self = pre +:+ "invalid" +:+ post) /\
    (verdict = true <->
       ~ exists pre post, file_path self = pre +:+ "invalid" +:+ post).
Proof.
  unfold file_validation.
  pose proof (PyStrFacts.contains_spec (file_path self) "invalid") as Hspec.
  destruct (PyStr.contains (file_path self) "invalid").
  - exists false. split; [done |]. split.
    + split; [intros _; by apply Hspec | done].
    + split; [done | intros Hn; exfalso; apply Hn; by apply Hspec].
  - exists true. split; [done |]. split.
    + split; [done | intros H; apply Hspec in H; discriminate].
    + split; [intros _ H; apply Hspec in H; discriminate | done].
Qed.

(** *** The endpoints with a fixed answer *)

(** C7. For any two requests and any two states, the composition
    endpoint answers the composition template both times and the table
    endpoint answers the one-row table wrapped under "data" both times;
    neither touches the state. *)
Theorem fixed_endpoints_input_independent (r1 r2 : Request) (s1 s2 : state) :
  post_databasevaluesbody r1 s1 = (Returns template_data_value, s1) /\
  post_databasevaluesbody r2 s2 = (Returns template_data_value, s2) /\
  process_txt_data_table r1 s1
    = (Returns (VDict [("data", table_data_value)]), s1) /\
  process_txt_data_table r2 s2
    = (Returns (VDict [("data", table_data_value)]), s2) /\
  fst (post_databasevaluesbody r1 s1) = fst (post_databasevaluesbody r2 s2) /\
  fst (process_txt_data_table r1 s1) = fst (process_txt_data_table r2 s2).
Proof.
  unfold post_databasevaluesbody, process_txt_data, process_txt_data_table.
  rewrite load_template_data. repeat split.
Qed.

(** *** The validation handler *)

(** What the temporary file holds once the body is written. *)
Lemma written_lookup (files : gmap string (list byte)) p (data : list byte) :
  alter (fun old => (old ++ data)%list) p (<[p:=[]]> files) !! p = Some data.
Proof. by rewrite lookup_alter_eq, lookup_insert_eq. Qed.

Lemma written_then_unlinked (files : gmap string (list byte)) p
    (data : list byte) :
  files !! p = None ->
  delete p (alter (fun old => (old ++ data)%list) p (<[p:=[]]> files)) = files.
Proof.
  intros Hfree. rewrite delete_alter_eq, delete_insert_eq. by apply delete_id.
Qed.

Ltac step_handler :=
  cbn -[alter insert delete lookup String.app];
  rewrite ?load_null, ?written_lookup;
  cbn -[alter insert delete lookup String.app].

(** The whole run when nothing fails in the operating system: both
    verdicts end in the [NameError] of the undefined name [null], the log
    tells which verdict it was, and the files other than the log file
    are as before. *)
Lemma validation_run_no_fault E request s p :
  first_free (fs s) (gettempdir E) ".txt" (random_names E) = Some p ->
  write_fault E = None -> close_fault E = None ->
  validation_of_incoming_txt_file E request s =
    (Raises (PyExc NameError "name 'null' is not defined"),
     {| fs := fs s;
        log := log s ++
          ["Validation failed: " +:+
             (if PyStr.contains p "invalid" then validation_message
              else "name 'null' is not defined")];
        local_file_path := Some p |}).
Proof.
  intros Hfree Hw Hc.
  pose proof (first_free_is_free _ _ _ _ _ Hfree) as Hnone.
  unfold validation_of_incoming_txt_file, try_except_finally, try_except,
    mbind, M_bind, new_frame, NamedTemporaryFile, tf_write, tf_close,
    store_file_path, load_file_path, file_validation, os_unlink,
    logging_error, Data_File_init.
  cbn [fs log local_file_path set_fs set_log set_local_file_path name
       file_path].
  rewrite Hfree, Hw, Hc. cbn [fs log local_file_path set_fs set_log
    set_local_file_path name file_path].
  destruct (PyStr.contains p "invalid"); cbn -[alter insert delete];
    rewrite written_lookup; cbn -[alter insert delete].
  all: unfold set_fs, set_log, set_local_file_path;
    cbn [fs log local_file_path];
    rewrite written_then_unlinked by done; reflexivity.
Qed.

(** X1. The handler never returns a value: whatever the request, the
    environment and the state, every path through it ends in an
    exception. *)
Lemma validation_never_returns E request s :
  exists e, fst (validation_of_incoming_txt_file E request s) = Raises e.
Proof.
  unfold_handler.
  destruct (first_free _ _ _ _) as [p|]; [| by eexists].
  destruct (write_fault E) as [ew|].
  { destruct (isinstance_Exception ew); step_handler; by eexists. }
  destruct (close_fault E) as [ec|].
  { destruct (isinstance_Exception ec); step_handler; by eexists. }
  step_handler.
  destruct (PyStr.contains p "invalid"); step_handler; by eexists.
Qed.

(** C8. Two requests handled in the same environment from the same state
    (hence at the same temporary path) end in the same outcome, write the
    same log line (the line tells the verdict apart), and leave the same
    set of paths behind. The handler takes no parser: the bytes are
    written to the file and never read. *)
Theorem validation_ignores_body (E : env) (r1 r2 : Request) (s : state) :
  fst (validation_of_incoming_txt_file E r1 s)
    = fst (validation_of_incoming_txt_file E r2 s) /\
  log (snd (validation_of_incoming_txt_file E r1 s))
    = log (snd (validation_of_incoming_txt_file E r2 s)) /\
  dom (fs (snd (validation_of_incoming_txt_file E r1 s)))
    = dom (fs (snd (validation_of_incoming_txt_file E r2 s))).
Proof.
  unfold_handler.
  destruct (first_free _ _ _ _) as [p|]; [| done].
  destruct (write_fault E) as [ew|].
  { destruct (isinstance_Exception ew); step_handler; done. }
  destruct (close_fault E) as [ec|].
  { destruct (isinstance_Exception ec); step_handler;
      by rewrite !dom_alter_L. }
  step_handler.
  destruct (PyStr.contains p "invalid"); step_handler;
    by rewrite !dom_delete_L, !dom_alter_L.
Qed.

Lemma store_steps_inv E byte_data s tf s1 :
  store_steps E byte_data s = (Returns tf, s1) ->
  first_free (fs s) (gettempdir E) ".txt" (random_names E) = Some (name tf) /\
  write_fault E = None /\ close_fault E = None /\
  fs s1 !! name tf = Some byte_data.
Proof.
  unfold store_steps, mbind, M_bind, mret, M_ret, NamedTemporaryFile,
    tf_write, tf_close.
  destruct (first_free _ _ _ _) as [p|]; [| done].
  destruct (write_fault E); [done |].
  destruct (close_fault E); [done |].
  intros [= <- <-]. cbn [name fs set_fs]. by rewrite written_lookup.
Qed.

(** C1 (the code departs from it). The scenario body, a temporary path
    without the marker, nothing failing: the handler does not return the
    pass envelope, it raises [NameError] for [null], after logging the
    same error as a validation failure. *)
Theorem validation_pass_scenario_raises :
  first_free (fs boot) (gettempdir env_tmp) ".txt" (random_names env_tmp)
    = Some "/tmp/tmpk3v9x_2a.txt" /\
  PyStr.contains "/tmp/tmpk3v9x_2a.txt" "invalid" = false /\
  fst (validation_of_incoming_txt_file env_tmp scenario_request boot)
    = Raises (PyExc NameError "name 'null' is not defined") /\
  log (snd (validation_of_incoming_txt_file env_tmp scenario_request boot))
    = ["Validation failed: name 'null' is not defined"].
Proof. vm_compute. repeat split. Qed.

(** C2 (the code departs from it). The same body with the marker in the
    temporary path: the failure is logged, then building the failure
    envelope raises [NameError] for [null]; the handler raises instead of
    returning the envelope. *)
Theorem validation_marker_scenario_raises :
  first_free (fs boot) (gettempdir env_marker) ".txt"
      (random_names env_marker)
    = Some "/srv/invalid/tmpk3v9x_2a.txt" /\
  PyStr.contains "/srv/invalid/tmpk3v9x_2a.txt" "invalid" = true /\
  fst (validation_of_incoming_txt_file env_marker scenario_request boot)
    = Raises (PyExc NameError "name 'null' is not defined") /\
  log (snd (validation_of_incoming_txt_file env_marker scenario_request boot))
    = ["Validation failed: System.Exception column 0: MA (unknown column name)"].
Proof. vm_compute. repeat split. Qed.

(** When creating, writing and closing the temporary file all succeed,
    the file, which held the body, is not in the filesystem when the
    handler is done, on both verdicts. *)
Theorem temp_file_absent_after_request E request s tf s1 :
  store_steps E (body request) s = (Returns tf, s1) ->
  fs s1 !! name tf = Some (body request) /\
  fs (snd (validation_of_incoming_txt_file E request s)) !! name tf = None.
Proof.
  intros Hstore.
  destruct (store_steps_inv _ _ _ _ _ Hstore) as (Hfree & Hw & Hc & Hheld).
  split; [done |].
  rewrite (validation_run_no_fault _ _ _ _ Hfree Hw Hc). cbn [snd fs].
  by apply first_free_is_free in Hfree.
Qed.

Lemma temp_file_absent_after_request_witness :
  store_steps env_marker (body scenario_request) boot
    = (Returns (TempFile "/srv/invalid/tmpk3v9x_2a.txt"),
       snd (store_steps env_marker (body scenario_request) boot)) /\
  fs (snd (validation_of_incoming_txt_file env_marker scenario_request boot))
    !! "/srv/invalid/tmpk3v9x_2a.txt" = None.
Proof.
  assert (Hstore : store_steps env_marker (body scenario_request) boot
    = (Returns (TempFile "/srv/invalid/tmpk3v9x_2a.txt"),
       snd (store_steps env_marker (body scenario_request) boot)))
    by (vm_compute; reflexivity).
  split; [exact Hstore |].
  exact (proj2 (temp_file_absent_after_request env_marker scenario_request
    boot (TempFile "/srv/invalid/tmpk3v9x_2a.txt") _ Hstore)).
Defined.

(** C3 (the code departs from it). The temporary file is created and
    the body is written to it, then closing it fails: the handler ends
    with [UnboundLocalError] from its [finally] suite and the temporary
    file, still holding the body, stays in the filesystem. *)
Theorem temp_file_left_after_failed_close :
  fst ((temp_file ← NamedTemporaryFile env_close_fails ".txt";
        tf_write env_close_fails temp_file (body scenario_request);;
        read_bytes (name temp_file)) boot)
    = Returns scenario_body /\
  fst (validation_of_incoming_txt_file env_close_fails scenario_request boot)
    = Raises (PyExc UnboundLocalError
        "cannot access local variable 'file_path' where it is not associated with a value") /\
  fs (snd (validation_of_incoming_txt_file env_close_fails scenario_request
             boot)) !! "/tmp/tmpk3v9x_2a.txt" = Some scenario_body /\
  log (snd (validation_of_incoming_txt_file env_close_fails scenario_request
              boot))
    = ["Validation failed: [Errno 5] Input/output error"].
Proof. vm_compute. repeat split. Qed.

(** C4 (the code departs from it). When the write fails, [file_path] was
    never assigned: the [finally] suite raises [UnboundLocalError]
    instead of doing nothing, and the file that was created stays. A
    second [os.unlink] of a removed path raises [FileNotFoundError]. *)
Theorem release_unguarded_after_failed_write :
  fst (validation_of_incoming_txt_file env_full scenario_request boot)
    = Raises (PyExc UnboundLocalError
        "cannot access local variable 'file_path' where it is not associated with a value") /\
  fs (snd (validation_of_incoming_txt_file env_full scenario_request boot))
    !! "/tmp/tmpk3v9x_2a.txt" = Some [] /\
  fst ((os_unlink "/tmp/tmpk3v9x_2a.txt";; os_unlink "/tmp/tmpk3v9x_2a.txt")
         (State {[ "/tmp/tmpk3v9x_2a.txt" := scenario_body ]} [] None))
    = Raises (PyExc FileNotFoundError
        "[Errno 2] No such file or directory: '/tmp/tmpk3v9x_2a.txt'").
Proof. vm_compute. repeat split. Qed.

(** *** The tabular reader *)

Section ReaderFacts.
Context {DataFrame : Type}.
Variable parser : string -> list byte -> exn + DataFrame.

Lemma read_csv_keeps_state path delimiter s :
  snd (read_csv DataFrame parser path delimiter s) = s.
Proof.
  unfold read_csv, mbind, M_bind, read_bytes.
  destruct (fs s !! path) as [content|]; [| done].
  by destruct (parser delimiter content).
Qed.

(** A table comes out of [df] only for a path with the suffix, and it
    is what the parser makes of the bytes of that file, cut at tabs. *)
Lemma df_returns_only_txt self s table self' s' :
  df DataFrame parser self s = (Returns (table, self'), s') ->
  PyStr.endswith (file_path self) ".txt" = true /\
  self' = self /\ s' = s /\
  exists content,
    fs s !! file_path self = Some content /\
    parser TAB content = inr table.
Proof.
  unfold df, try_except, read_csv, mbind, M_bind, read_bytes,
    logging_error.
  destruct (PyStr.endswith (file_path self) ".txt"); cbn.
  - destruct (fs s !! file_path self) as [content|] eqn:Hf; cbn.
    + destruct (parser TAB content) as [e|t] eqn:Hp; cbn.
      * by destruct (isinstance_Exception e).
      * intros [= <- <- <-]. eauto 6.
    + done.
  - done.
Qed.

End ReaderFacts.

(** C6. For a path that does not end in ".txt", whatever the parser and
    the state, [df] raises [HTTPException] with status 500 after logging
    the refusal; the outcome does not mention the parser or the
    filesystem, so nothing was read or parsed and no table is returned.
    (By [df_returns_only_txt], a table is only ever returned for a path
    with the suffix.) *)
Theorem df_rejects_non_txt (DataFrame : Type)
    (parser : string -> list byte -> exn + DataFrame)
    (self : Data_File) (s : state) :
  PyStr.endswith (file_path self) ".txt" = false ->
  df DataFrame parser self s =
    (Raises (HTTPException 500 "Error reading file: File is not a .txt file"),
     set_log (fun l => l ++
       ["Error reading file " +:+ file_path self +:+
          ": File is not a .txt file"])%list s).
Proof.
  intros Hsuffix. unfold df, try_except. by rewrite Hsuffix.
Qed.

Lemma df_rejects_non_txt_witness :
  PyStr.endswith (file_path (Data_File_init "/tmp/scan.csv")) ".txt" = false /\
  df _ sample_parser (Data_File_init "/tmp/scan.csv") boot =
    (Raises (HTTPException 500 "Error reading file: File is not a .txt file"),
     set_log (fun l => l ++
       ["Error reading file " +:+ file_path (Data_File_init "/tmp/scan.csv")
          +:+ ": File is not a .txt file"])%list boot).
Proof.
  split; [reflexivity |].
  apply (df_rejects_non_txt _ sample_parser (Data_File_init "/tmp/scan.csv")
           boot).
  reflexivity.
Defined.

(** C9, as the claim words it, fails: the detail of the error [df]
    surfaces is not one fixed string. A path without the suffix and a
    missing file give different details, each carrying the text of the
    exception raised inside (for the missing file, the path included). *)
Lemma read_error_detail_not_fixed :
  fst (df _ sample_parser (Data_File_init "/tmp/scan.csv") boot)
    = Raises (HTTPException 500
        "Error reading file: File is not a .txt file") /\
  fst (df _ sample_parser (Data_File_init "/tmp/scan.txt") boot)
    = Raises (HTTPException 500
        "Error reading file: [Errno 2] No such file or directory: '/tmp/scan.txt'") /\
  ~ (exists fixed : string,
       forall self s status detail,
         fst (df _ sample_parser self s)
           = Raises (HTTPException status detail) ->
         detail = fixed).
Proof.
  split; [reflexivity |]. split; [reflexivity |].
  intros [fixed Hfixed].
  pose proof (Hfixed (Data_File_init "/tmp/scan.csv") boot _ _ eq_refl) as H1.
  pose proof (Hfixed (Data_File_init "/tmp/scan.txt") boot _ _ eq_refl) as H2.
  rewrite <- H2 in H1. discriminate H1.
Qed.

(** C9, amended. When [df] fails with an error that [except Exception]
    lets through to the caller as its own, that error is
    [HTTPException] with status 500 whose detail is "Error reading
    file: " followed by the text of the exception raised inside the
    [try] suite; the same text, with the path, is the line added to the
    log; the filesystem is untouched. *)
Theorem df_error_detail_carries_text (DataFrame : Type)
    (parser : string -> list byte -> exn + DataFrame)
    (self : Data_File) (s : state) (surfaced : exn) (s' : state) :
  df DataFrame parser self s = (Raises surfaced, s') ->
  isinstance_Exception surfaced = true ->
  exists e,
    raised_inside parser self s e /\
    surfaced = HTTPException 500 ("Error reading file: " +:+ str e) /\
    log s' = (log s ++
      ["Error reading file " +:+ file_path self +:+ ": " +:+ str e])%list /\
    fs s' = fs s.
Proof.
  unfold raised_inside, df, try_except, logging_error.
  destruct (PyStr.endswith (file_path self) ".txt").
  - pose proof (read_csv_keeps_state parser (file_path self) TAB s) as Hkeep.
    unfold mbind at 1. unfold M_bind at 1.
    destruct (read_csv DataFrame parser (file_path self) TAB s) as [[t|e] s1];
      cbn in Hkeep; subst s1; cbn.
    + done.
    + destruct (isinstance_Exception e) eqn:He.
      * intros [= <- <-] _. exists e. cbn. eauto 6.
      * intros [= <- <-] Hs. congruence.
  - cbn. intros [= <- <-] _. eexists. split; [by left |]. done.
Qed.

Lemma df_error_detail_carries_text_witness :
  exists e,
    raised_inside sample_parser (Data_File_init "/tmp/scan.txt") boot e /\
    HTTPException 500
      "Error reading file: [Errno 2] No such file or directory: '/tmp/scan.txt'"
      = HTTPException 500 ("Error reading file: " +:+ str e) /\
    log (snd (df _ sample_parser (Data_File_init "/tmp/scan.txt") boot))
      = (log boot ++
          ["Error reading file "
             +:+ file_path (Data_File_init "/tmp/scan.txt")
             +:+ ": " +:+ str e])%list /\
    fs (snd (df _ sample_parser (Data_File_init "/tmp/scan.txt") boot))
      = fs boot.
Proof.
  apply (df_error_detail_carries_text _ sample_parser
           (Data_File_init "/tmp/scan.txt") boot).
  - vm_compute. reflexivity.
  - reflexivity.
Defined.

(** *** The temporary file store *)

Lemma store_steps_ok E byte_data s p :
  first_free (fs s) (gettempdir E) ".txt" (random_names E) = Some p ->
  write_fault E = None -> close_fault E = None ->
  exists s1, store_steps E byte_data s = (Returns (TempFile p), s1).
Proof.
  intros Hfree Hw Hc.
  unfold store_steps, mbind, M_bind, NamedTemporaryFile, tf_write, tf_close.
  rewrite Hfree, Hw, Hc. by eexists.
Qed.

(** C10. After the body [B] has been stored (file created, [B] written,
    file closed), reading the file back gives exactly [B], and
    [read_csv] hands exactly [B] to the parser. *)
Theorem store_read_roundtrip (E : env) (B : list byte) (s : state)
    (tf : temp_file) (s1 : state) :
  store_steps E B s = (Returns tf, s1) ->
  read_bytes (name tf) s1 = (Returns B, s1) /\
  forall (DataFrame : Type) (parser : string -> list byte -> exn + DataFrame),
    fst (read_csv DataFrame parser (name tf) TAB s1)
      = match parser TAB B with
        | inl e => Raises e
        | inr table => Returns table
        end.
Proof.
  intros Hstore.
  destruct (store_steps_inv _ _ _ _ _ Hstore) as (_ & _ & _ & Hheld).
  split.
  - unfold read_bytes. by rewrite Hheld.
  - intros DataFrame parser. unfold read_csv, mbind, M_bind, read_bytes.
    rewrite Hheld. by destruct (parser TAB B).
Qed.

Lemma store_read_roundtrip_witness :
  store_steps env_tmp scenario_body boot
    = (Returns (TempFile "/tmp/tmpk3v9x_2a.txt"),
       snd (store_steps env_tmp scenario_body boot)) /\
  read_bytes "/tmp/tmpk3v9x_2a.txt" (snd (store_steps env_tmp scenario_body boot))
    = (Returns scenario_body, snd (store_steps env_tmp scenario_body boot)).
Proof.
  assert (Hstore : store_steps env_tmp scenario_body boot
    = (Returns (TempFile "/tmp/tmpk3v9x_2a.txt"),
       snd (store_steps env_tmp scenario_body boot)))
    by (vm_compute; reflexivity).
  split; [exact Hstore |].
  exact (proj1 (store_read_roundtrip env_tmp scenario_body boot
    (TempFile "/tmp/tmpk3v9x_2a.txt") _ Hstore)).
Defined.

(** ** Further properties of the code *)

(** *** The validation handler, on every path *)



(** X3. If creating, writing and closing the temporary file succeed,
    the request leaves one trace only: the files other than the log file
    are those from before it, with their content, and the log file has
    exactly one more line, a "Validation failed: " line. *)
Theorem validation_leaves_only_a_log_line (E : env) (request : Request)
    (s : state) (tf : temp_file) (s1 : state) :
  store_steps E (body request) s = (Returns tf, s1) ->
  fs (snd (validation_of_incoming_txt_file E request s)) = fs s /\
  exists text,
    log (snd (validation_of_incoming_txt_file E request s))
      = (log s ++ ["Validation failed: " +:+ text])%list.
Proof.
  intros Hstore.
  destruct (store_steps_inv _ _ _ _ _ Hstore) as (Hfree & Hw & Hc & _).
  rewrite (validation_run_no_fault _ _ _ _ Hfree Hw Hc). cbn [snd fs log].
  split; [done | by eexists].
Qed.

Lemma validation_leaves_only_a_log_line_witness :
  store_steps env_tmp (body scenario_request) with_scan
    = (Returns (TempFile "/tmp/tmpk3v9x_2a.txt"),
       snd (store_steps env_tmp (body scenario_request) with_scan)) /\
  fs (snd (validation_of_incoming_txt_file env_tmp scenario_request
             with_scan)) = fs with_scan.
Proof.
  assert (Hstore : store_steps env_tmp (body scenario_request) with_scan
    = (Returns (TempFile "/tmp/tmpk3v9x_2a.txt"),
       snd (store_steps env_tmp (body scenario_request) with_scan)))
    by (vm_compute; reflexivity).
  split; [exact Hstore |].
  exact (proj1 (validation_leaves_only_a_log_line env_tmp scenario_request
    with_scan (TempFile "/tmp/tmpk3v9x_2a.txt") _ Hstore)).
Defined.

(** X4. If the temporary file is created and then the write or the
    close raises, whatever it raises, the caller gets
    [UnboundLocalError] for [file_path] instead of that error, and the
    temporary file is still in the filesystem. *)
Theorem failed_store_masks_error_and_leaks (E : env) (request : Request)
    (s : state) (p : string) (e : exn) (s1 : state) :
  first_free (fs s) (gettempdir E) ".txt" (random_names E) = Some p ->
  store_steps E (body request) s = (Raises e, s1) ->
  fst (validation_of_incoming_txt_file E request s)
    = Raises (PyExc UnboundLocalError
        "cannot access local variable 'file_path' where it is not associated with a value") /\
  is_Some (fs (snd (validation_of_incoming_txt_file E request s)) !! p).
Proof.
  intros Hfree. unfold store_steps, mbind, M_bind, mret, M_ret.
  unfold_handler. rewrite Hfree.
  destruct (write_fault E) as [ew|].
  { intros _. destruct (isinstance_Exception ew); step_handler;
      (split; [done | by rewrite lookup_insert_eq]). }
  destruct (close_fault E) as [ec|]; [| done].
  intros _. destruct (isinstance_Exception ec); step_handler;
    (split; [done | rewrite ?written_lookup; by eexists]).
Qed.

Lemma failed_store_masks_error_and_leaks_witness :
  first_free (fs boot) (gettempdir env_close_fails) ".txt"
      (random_names env_close_fails) = Some "/tmp/tmpk3v9x_2a.txt" /\
  store_steps env_close_fails (body scenario_request) boot
    = (Raises (PyExc OSError "[Errno 5] Input/output error"),
       snd (store_steps env_close_fails (body scenario_request) boot)) /\
  fst (validation_of_incoming_txt_file env_close_fails scenario_request boot)
    = Raises (PyExc UnboundLocalError
        "cannot access local variable 'file_path' where it is not associated with a value").
Proof.
  assert (Hfree : first_free (fs boot) (gettempdir env_close_fails) ".txt"
      (random_names env_close_fails) = Some "/tmp/tmpk3v9x_2a.txt")
    by reflexivity.
  assert (Hstore : store_steps env_close_fails (body scenario_request) boot
    = (Raises (PyExc OSError "[Errno 5] Input/output error"),
       snd (store_steps env_close_fails (body scenario_request) boot)))
    by (vm_compute; reflexivity).
  split; [exact Hfree |]. split; [exact Hstore |].
  exact (proj1 (failed_store_masks_error_and_leaks env_close_fails
    scenario_request boot _ _ _ Hfree Hstore)).
Defined.

(** X5. The temporary file is created before the [try]: when no name is
    free, [FileExistsError] leaves the handler as it is, nothing is
    logged and no file is touched. *)
Theorem creation_failure_is_not_handled (E : env) (request : Request)
    (s : state) :
  first_free (fs s) (gettempdir E) ".txt" (random_names E) = None ->
  fst (validation_of_incoming_txt_file E request s)
    = Raises (PyExc FileExistsError
        "[Errno 17] No usable temporary file name found") /\
  log (snd (validation_of_incoming_txt_file E request s)) = log s /\
  fs (snd (validation_of_incoming_txt_file E request s)) = fs s.
Proof.
  intros Hnone. unfold_handler. by rewrite Hnone.
Qed.

Lemma creation_failure_is_not_handled_witness :
  first_free (fs name_taken) (gettempdir env_no_name) ".txt"
      (random_names env_no_name) = None /\
  fst (validation_of_incoming_txt_file env_no_name scenario_request
         name_taken)
    = Raises (PyExc FileExistsError
        "[Errno 17] No usable temporary file name found").
Proof.
  split; [reflexivity |].
  apply (creation_failure_is_not_handled env_no_name scenario_request
           name_taken).
  reflexivity.
Defined.

(** *** Strings put together *)

Lemma str_app_assoc (a b c : string) : (a +:+ b) +:+ c = a +:+ (b +:+ c).
Proof.
  induction a as [|x a IH]; [done |].
  change (String x ((a +:+ b) +:+ c) = String x (a +:+ (b +:+ c))).
  by rewrite IH.
Qed.

Lemma str_app_length (a b : string) :
  String.length (a +:+ b) = (String.length a + String.length b)%nat.
Proof.
  induction a as [|x a IH]; [done |].
  change (S (String.length (a +:+ b))
          = S (String.length a + String.length b)). by rewrite IH.
Qed.

Lemma str_app_inj_length (a a' b b' : string) :
  a +:+ b = a' +:+ b' -> String.length a = String.length a' ->
  a = a' /\ b = b'.
Proof.
  revert a'; induction a as [|x a IH]; intros [|x' a'] Happ Hlen;
    try discriminate.
  - done.
  - change (String x (a +:+ b) = String x' (a' +:+ b')) in Happ.
    injection Happ as -> Happ. injection Hlen as Hlen.
    destruct (IH _ Happ Hlen) as [-> ->]. done.
Qed.

Lemma contains_inside (pre hay post needle : string) :
  PyStr.contains hay needle = true ->
  PyStr.contains (pre +:+ hay +:+ post) needle = true.
Proof.
  rewrite !PyStrFacts.contains_spec. intros (l & r & ->).
  exists (pre +:+ l), (r +:+ post). by rewrite !str_app_assoc.
Qed.

Lemma candidate_path_suffix (dir rnd suffix : string) :
  PyStr.endswith (candidate_path dir rnd suffix) suffix = true.
Proof.
  apply PyStrFacts.endswith_spec. exists (dir +:+ "/" +:+ "tmp" +:+ rnd).
  unfold candidate_path. by rewrite !str_app_assoc.
Qed.

Lemma first_free_candidate files dir suffix rnds p :
  first_free files dir suffix rnds = Some p ->
  exists rnd, p = candidate_path dir rnd suffix.
Proof.
  induction rnds as [|rnd rnds IH]; simpl; [done |].
  destruct (files !! candidate_path dir rnd suffix); [done |].
  intros [= <-]. by exists rnd.
Qed.

(** *** The validator and the reader on the temporary file *)

(** X6. When the name of the temporary directory itself contains
    "invalid", every upload that is stored is judged invalid, whatever
    its bytes and whatever random name is drawn: the line logged is the
    one of the fail verdict. *)
Theorem marker_in_tempdir_fails_every_upload (E : env) (request : Request)
    (s : state) (tf : temp_file) (s1 : state) :
  PyStr.contains (gettempdir E) "invalid" = true ->
  store_steps E (body request) s = (Returns tf, s1) ->
  fst (file_validation (Data_File_init (name tf)) s1)
    = Returns (false, Data_File_init (name tf)) /\
  log (snd (validation_of_incoming_txt_file E request s))
    = (log s ++ ["Validation failed: " +:+ validation_message])%list.
Proof.
  intros Hdir Hstore.
  destruct (store_steps_inv _ _ _ _ _ Hstore) as (Hfree & Hw & Hc & _).
  destruct (first_free_candidate _ _ _ _ _ Hfree) as [rnd Hp].
  assert (Hin : PyStr.contains (name tf) "invalid" = true).
  { rewrite Hp. unfold candidate_path.
    apply (contains_inside "" (gettempdir E)). exact Hdir. }
  split.
  - unfold file_validation, Data_File_init. cbn [file_path]. by rewrite Hin.
  - rewrite (validation_run_no_fault _ _ _ _ Hfree Hw Hc). cbn [snd log].
    by rewrite Hin.
Qed.

Lemma marker_in_tempdir_fails_every_upload_witness :
  PyStr.contains (gettempdir env_marker) "invalid" = true /\
  store_steps env_marker (body empty_request) boot
    = (Returns (TempFile "/srv/invalid/tmpk3v9x_2a.txt"),
       snd (store_steps env_marker (body empty_request) boot)) /\
  log (snd (validation_of_incoming_txt_file env_marker empty_request boot))
    = (log boot ++ ["Validation failed: " +:+ validation_message])%list.
Proof.
  assert (Hdir : PyStr.contains (gettempdir env_marker) "invalid" = true)
    by reflexivity.
  assert (Hstore : store_steps env_marker (body empty_request) boot
    = (Returns (TempFile "/srv/invalid/tmpk3v9x_2a.txt"),
       snd (store_steps env_marker (body empty_request) boot)))
    by (vm_compute; reflexivity).
  split; [exact Hdir |]. split; [exact Hstore |].
  exact (proj2 (marker_in_tempdir_fails_every_upload env_marker empty_request
    boot _ _ Hdir Hstore)).
Defined.

(** X7. The suffix the handler gives the temporary file is the suffix
    [df] asks for: on a stored upload [df] never refuses the name, and
    when the parser accepts the bytes of the body [df] returns that
    table, leaving the receiver and the state as they are. *)
Theorem stored_upload_is_readable (DataFrame : Type)
    (parser : string -> list byte -> exn + DataFrame)
    (E : env) (B : list byte) (s : state) (tf : temp_file) (s1 : state)
    (table : DataFrame) :
  store_steps E B s = (Returns tf, s1) ->
  parser TAB B = inr table ->
  PyStr.endswith (name tf) ".txt" = true /\
  df DataFrame parser (Data_File_init (name tf)) s1
    = (Returns (table, Data_File_init (name tf)), s1).
Proof.
  intros Hstore Hparse.
  destruct (store_steps_inv _ _ _ _ _ Hstore) as (Hfree & _ & _ & Hheld).
  destruct (first_free_candidate _ _ _ _ _ Hfree) as [rnd Hp].
  assert (Hsuffix : PyStr.endswith (name tf) ".txt" = true)
    by (rewrite Hp; apply candidate_path_suffix).
  split; [exact Hsuffix |].
  unfold df, try_except, read_csv, mbind, M_bind, read_bytes, Data_File_init.
  cbn [file_path]. by rewrite Hsuffix, Hheld, Hparse.
Qed.

Lemma stored_upload_is_readable_witness :
  store_steps env_tmp scenario_body boot
    = (Returns (TempFile "/tmp/tmpk3v9x_2a.txt"),
       snd (store_steps env_tmp scenario_body boot)) /\
  sample_parser TAB scenario_body
    = inr (map (split_on "009"%byte) (split_on "010"%byte scenario_body)) /\
  PyStr.endswith "/tmp/tmpk3v9x_2a.txt" ".txt" = true.
Proof.
  assert (Hstore : store_steps env_tmp scenario_body boot
    = (Returns (TempFile "/tmp/tmpk3v9x_2a.txt"),
       snd (store_steps env_tmp scenario_body boot)))
    by (vm_compute; reflexivity).
  assert (Hparse : sample_parser TAB scenario_body
    = inr (map (split_on "009"%byte) (split_on "010"%byte scenario_body)))
    by reflexivity.
  split; [exact Hstore |]. split; [exact Hparse |].
  exact (proj1 (stored_upload_is_readable _ sample_parser env_tmp
    scenario_body boot _ _ _ Hstore Hparse)).
Defined.

(** *** The name of the log file *)

Lemma str_int_inj (a b : Z) : str_int a = str_int b -> a = b.
Proof.
  unfold str_int. intros H.
  apply (f_equal NilZero.int_of_string) in H.
  rewrite !NilZero.isi in H.
  - injection H as H. by apply DecimalZ.to_int_inj.
  - destruct b; simpl; [done | | done].
    intros [= Hn]. by apply Unsigned.to_uint_nonnil in Hn.
  - destruct b; simpl; [done | done |].
    intros [= Hn]. by apply Unsigned.to_uint_nonnil in Hn.
  - destruct a; simpl; [done | | done].
    intros [= Hn]. by apply Unsigned.to_uint_nonnil in Hn.
  - destruct a; simpl; [done | done |].
    intros [= Hn]. by apply Unsigned.to_uint_nonnil in Hn.
Qed.

(** Below one hundred, [format_02] writes two characters that read back
    as the number. *)
Lemma format_02_two_digits (n : Z) :
  0 <= n <= 99 ->
  String.length (format_02 n) = 2%nat /\
  Z.of_int <$> NilZero.int_of_string (format_02 n) = Some n.
Proof.
  intros Hn.
  assert (Hall : Forall (fun k =>
      String.length (format_02 k) = 2%nat /\
      Z.of_int <$> NilZero.int_of_string (format_02 k) = Some k)
    (map Z.of_nat (seq 0 100))).
  { vm_compute. repeat constructor. }
  rewrite Forall_forall in Hall. apply Hall.
  apply list_elem_of_In, in_map_iff. exists (Z.to_nat n). split; [lia |].
  apply in_seq. lia.
Qed.

Lemma format_02_inj (a b : Z) :
  0 <= a <= 99 -> 0 <= b <= 99 -> format_02 a = format_02 b -> a = b.
Proof.
  intros Ha Hb H.
  destruct (format_02_two_digits a Ha) as [_ Ea].
  destruct (format_02_two_digits b Hb) as [_ Eb].
  rewrite H in Ea. congruence.
Qed.

Lemma file_name_inj (d1 d2 : datetime) :
  datetime_fields_ok d1 -> datetime_fields_ok d2 ->
  file_name d1 = file_name d2 -> d1 = d2.
Proof.
  intros (_ & Hm1 & Hd1) (_ & Hm2 & Hd2) H.
  destruct d1 as [y1 m1 dd1], d2 as [y2 m2 dd2]. cbn [year month day] in *.
  unfold file_name in H. cbn [year month day] in H.
  apply (inj (String.app "./Loggs/")) in H.
  destruct (format_02_two_digits m1) as [Lm1 _]; [lia |].
  destruct (format_02_two_digits m2) as [Lm2 _]; [lia |].
  destruct (format_02_two_digits dd1) as [Ld1 _]; [lia |].
  destruct (format_02_two_digits dd2) as [Ld2 _]; [lia |].
  pose proof (f_equal String.length H) as Hlen.
  rewrite !str_app_length, Lm1, Lm2, Ld1, Ld2 in Hlen.
  apply str_app_inj_length in H as [Hy H]; [| lia].
  apply (inj (String.app "-")) in H.
  apply str_app_inj_length in H as [Hm H]; [| congruence].
  apply (inj (String.app "-")) in H.
  apply str_app_inj_length in H as [Hd _]; [| congruence].
  apply str_int_inj in Hy. apply format_02_inj in Hm; [| lia..].
  apply format_02_inj in Hd; [| lia..]. by subst.
Qed.

(** The temporary file and the log file never share a path: one ends
    in ".txt", the other in ".log". The handler's file operations
    therefore never reach the log file, which is why the state keeps it
    apart from the other files. *)
Lemma temp_path_is_not_log_file (dir rnd : string) (today : datetime) :
  candidate_path dir rnd ".txt" <> file_name today.
Proof.
  unfold candidate_path, file_name. intros H.
  rewrite <- !str_app_assoc in H.
  pose proof (f_equal String.length H) as Hlen.
  rewrite (str_app_length _ ".txt"), (str_app_length _ ".log") in Hlen.
  apply str_app_inj_length in H as [_ H]; [discriminate H |].
  cbn [String.length] in Hlen. lia.
Qed.

(** X8. Two different dates never share a log file name: the name tells
    the year, the month and the day apart. *)
Theorem distinct_dates_distinct_log_files (d1 d2 : datetime) :
  datetime_fields_ok d1 -> datetime_fields_ok d2 ->
  d1 <> d2 -> file_name d1 <> file_name d2.
Proof.
  intros H1 H2 Hne Heq. apply Hne. by apply file_name_inj.
Qed.

Lemma distinct_dates_distinct_log_files_witness :
  datetime_fields_ok {| year := 2026; month := 1; day := 12 |} /\
  datetime_fields_ok {| year := 2026; month := 11; day := 2 |} /\
  file_name {| year := 2026; month := 1; day := 12 |}
    <> file_name {| year := 2026; month := 11; day := 2 |}.
Proof.
  assert (H1 : datetime_fields_ok {| year := 2026; month := 1; day := 12 |})
    by (unfold datetime_fields_ok; simpl; lia).
  assert (H2 : datetime_fields_ok {| year := 2026; month := 11; day := 2 |})
    by (unfold datetime_fields_ok; simpl; lia).
  split; [exact H1 |]. split; [exact H2 |].
  apply (distinct_dates_distinct_log_files _ _ H1 H2). discriminate.
Defined.

(** *** The tabular reader, case by case *)

(** X9. [df] returns a table exactly when the path ends in ".txt", the
    file exists and the parser accepts its bytes cut at tabs; the table
    is then the parser's, and the receiver and the state come back as
    they were. *)
Theorem df_returns_iff (DataFrame : Type)
    (parser : string -> list byte -> exn + DataFrame)
    (self self' : Data_File) (s s' : state) (table : DataFrame) :
  df DataFrame parser self s = (Returns (table, self'), s') <->
  (self' = self /\ s' = s /\
   PyStr.endswith (file_path self) ".txt" = true /\
   exists content,
     fs s !! file_path self = Some content /\
     parser TAB content = inr table).
Proof.
  split.
  - intros Hdf. apply df_returns_only_txt in Hdf.
    destruct Hdf as (Hsuffix & -> & -> & content & Hf & Hp). eauto 8.
  - intros (-> & -> & Hsuffix & content & Hf & Hp).
    unfold df, try_except, read_csv, mbind, M_bind, read_bytes.
    by rewrite Hsuffix, Hf, Hp.
Qed.



(** X11. An exception of the parser that is not an [Exception] (an
    interrupt) passes through [df] as it is: it is not logged and not
    turned into [HTTPException]. *)
Theorem df_lets_interrupts_through (DataFrame : Type)
    (parser : string -> list byte -> exn + DataFrame)
    (self : Data_File) (s : state) (content : list byte) (e : exn) :
  PyStr.endswith (file_path self) ".txt" = true ->
  fs s !! file_path self = Some content ->
  parser TAB content = inl e ->
  isinstance_Exception e = false ->
  df DataFrame parser self s = (Raises e, s).
Proof.
  intros Hsuffix Hf Hp He.
  unfold df, try_except, read_csv, mbind, M_bind, read_bytes, raise.
  by rewrite Hsuffix, Hf, Hp, He.
Qed.

Lemma df_lets_interrupts_through_witness :
  PyStr.endswith (file_path (Data_File_init "/data/scan.txt")) ".txt"
    = true /\
  fs with_scan !! file_path (Data_File_init "/data/scan.txt")
    = Some scenario_body /\
  interrupted_parser TAB scenario_body = inl (PyExc KeyboardInterrupt "") /\
  isinstance_Exception (PyExc KeyboardInterrupt "") = false /\
  df _ interrupted_parser (Data_File_init "/data/scan.txt") with_scan
    = (Raises (PyExc KeyboardInterrupt ""), with_scan).
Proof.
  split; [reflexivity |]. split; [reflexivity |].
  split; [reflexivity |]. split; [reflexivity |].
  apply (df_lets_interrupts_through _ interrupted_parser
           (Data_File_init "/data/scan.txt") with_scan scenario_body);
    reflexivity.
Defined.

(** X12. [df] writes to the log exactly when it raises an [Exception]:
    then the log file has one more line; when [df] returns a table or
    lets an interrupt through, the log file is as it was. *)
Theorem df_logs_exactly_on_exception (DataFrame : Type)
    (parser : string -> list byte -> exn + DataFrame)
    (self : Data_File) (s : state) :
  match fst (df DataFrame parser self s) with
  | Returns _ => log (snd (df DataFrame parser self s)) = log s
  | Raises e =>
      if isinstance_Exception e
      then exists line,
             log (snd (df DataFrame parser self s)) = (log s ++ [line])%list
      else log (snd (df DataFrame parser self s)) = log s
  end.
Proof.
  remember (df DataFrame parser self s) as R eqn:HR.
  unfold df, try_except, logging_error in HR.
  destruct (PyStr.endswith (file_path self) ".txt").
  - pose proof (read_csv_keeps_state parser (file_path self) TAB s) as Hkeep.
    unfold mbind at 1 in HR. unfold M_bind at 1 in HR.
    destruct (read_csv DataFrame parser (file_path self) TAB s) as [[t|e] s1];
      cbn in Hkeep; subst s1; cbn in HR.
    + by subst R.
    + destruct (isinstance_Exception e) eqn:He; subst R; cbn.
      * by eexists.
      * by rewrite He.
  - subst R. cbn. by eexists.
Qed.

(** *** The [finally] suite on its own *)

Lemma finally_unlink_absent_witness :
  local_file_path
    (snd (try_except_finally
            (raise (PyExc KeyboardInterrupt ""))
            (fun _ => mret VNone)
            (file_path ← load_file_path; os_unlink file_path)
            (State {[ "/tmp/tmpk3v9x_2a.txt" := scenario_body ]} []
               (Some "/tmp/tmpk3v9x_2a.txt"))))
    = Some "/tmp/tmpk3v9x_2a.txt" /\
  fs (snd (try_except_finally
            (raise (PyExc KeyboardInterrupt ""))
            (fun _ => mret VNone)
            (file_path ← load_file_path; os_unlink file_path)
            (State {[ "/tmp/tmpk3v9x_2a.txt" := scenario_body ]} []
               (Some "/tmp/tmpk3v9x_2a.txt"))))
    !! "/tmp/tmpk3v9x_2a.txt" = None.
Proof.
  split; [reflexivity |].
  apply (finally_unlink_absent
           (raise (PyExc KeyboardInterrupt "")) (fun _ => mret VNone)
           (State {[ "/tmp/tmpk3v9x_2a.txt" := scenario_body ]} []
              (Some "/tmp/tmpk3v9x_2a.txt"))
           (fst (try_except_finally
              (raise (PyExc KeyboardInterrupt ""))
              (fun _ => mret VNone)
              (file_path ← load_file_path; os_unlink file_path)
              (State {[ "/tmp/tmpk3v9x_2a.txt" := scenario_body ]} []
                 (Some "/tmp/tmpk3v9x_2a.txt"))))).
  - apply surjective_pairing.
  - reflexivity.
Defined.
